(** * papyruspdf-api: the HTML-to-PDF gateway of [src/index.ts]

    The repository holds two versions of the worker.  Both register the same
    [POST /pdf] route; they differ in how the rendering provider is reached:

    - [ClientLibrary]: through [client.browserRendering.pdf.create] of the
      [cloudflare] package (first version in the file);
    - [RawFetch]: through a direct [fetch] to the provider's REST endpoint
      (second version in the file).

    The handler is an [async] function whose whole body sits in one
    [try]/[catch].  It is embedded in a small monad that threads the
    observable world (outbound provider calls, console output) and carries
    JavaScript's abrupt completions.  The provider itself is outside the
    repository: it is a variable of the development (a function answering
    each outbound call), and every statement is quantified over it.

    Hono's helpers ([c.req.valid], [c.json]), the validation that
    [app.openapi] puts in front of a handler, and the runtime's [Response]
    constructor are library code: they are taken at their documented
    behaviour, [c.json] with the constructor's refusal of a status that
    cannot carry a body.  Bodies are kept as the values handed to [c.json]
    and [JSON.stringify], not as serialised text. *)

From Stdlib Require Import Strings.String Strings.Ascii Strings.Byte List ZArith Lia.
Import ListNotations.
Local Open Scope string_scope.
Local Open Scope Z_scope.
#[local] Set Warnings "-register-all".

(** ** JSON values, as handed to [c.json] and [JSON.stringify] *)

Inductive Json : Type :=
| JNull
| JBool (b : bool)
| JNumber (n : Z)
| JString (s : string)
| JArray (items : list Json)
| JObject (fields : list (string * Json)).

Fixpoint get_field (key : string) (fields : list (string * Json)) : option Json :=
  match fields with
  | [] => None
  | (k, v) :: rest => if String.eqb k key then Some v else get_field key rest
  end.

Definition field (key : string) (j : Json) : option Json :=
  match j with
  | JObject fields => get_field key fields
  | _ => None
  end.

Definition has_field (key : string) (j : Json) : bool :=
  match field key j with Some _ => true | None => false end.

Definition keys (j : Json) : list string :=
  match j with
  | JObject fields => map fst fields
  | _ => []
  end.

(** [ErrorResponseSchema = z.object({ error: z.string(),
    details: z.string().optional() })]: an object whose [error] is a string
    and whose [details], when present, is a string. *)
Definition ErrorResponseSchema (j : Json) : bool :=
  match j with
  | JObject _ =>
      match field "error" j with
      | Some (JString _) =>
          match field "details" j with
          | None | Some (JString _) => true
          | Some _ => false
          end
      | _ => false
      end
  | _ => false
  end.

(** ** Truthiness of an optional string

    [body.html], [c.env.CLOUDFLARE_ACCOUNT_ID] and [c.env.CLOUDFLARE_API_TOKEN]
    are strings that may be [undefined] at run time ([None]).  The handler
    tests them with [!x], which holds for [undefined] and for the empty
    string.  [truthy x] is the string the code goes on with when [!x] is
    false. *)
Definition truthy (x : option string) : option string :=
  match x with
  | Some s => if String.eqb s "" then None else Some s
  | None => None
  end.

Definition not_ (x : option string) : bool :=
  match truthy x with Some _ => false | None => true end.

(** ** Requests, environment, responses *)

(** The validated JSON body, [c.req.valid("json")]. *)
Record PDFRequest : Type := { html : option string }.

(** [interface Env]. *)
Record Env : Type := {
  CLOUDFLARE_ACCOUNT_ID : option string;
  CLOUDFLARE_API_TOKEN : option string
}.

(** The part of Hono's context the handler reads. *)
Record Context : Type := { req_valid_json : PDFRequest; env : Env }.

Inductive Body : Type :=
| JsonBody (j : Json)
| BinaryBody (bytes : list byte).

Record Response : Type := {
  status : Z;
  headers : list (string * string);
  body : Body
}.

Fixpoint header (name : string) (hs : list (string * string)) : option string :=
  match hs with
  | [] => None
  | (k, v) :: rest => if String.eqb k name then Some v else header name rest
  end.

(** The response [c.json(object, status)] returns when the runtime builds
    it; the call itself, which may throw, is [json_call] below. *)
Definition c_json (object : Json) (st : Z) : Response :=
  {| status := st;
     headers := [("Content-Type", "application/json")];
     body := JsonBody object |}.

(** [new Response(buffer, { headers })]: the status defaults to 200. *)
Definition new_Response (buffer : list byte) (hs : list (string * string)) : Response :=
  {| status := 200; headers := hs; body := BinaryBody buffer |}.

(** ** Thrown values and completions *)

(** What a [catch] clause can receive: an [Error] instance with its
    [message], or any other value. *)
Inductive Thrown : Type :=
| ErrorInstance (message : string)
| NonError (v : Json).

Inductive Completion (A : Type) : Type :=
| Normal (a : A)
| Abrupt (e : Thrown).
Arguments Normal {A} a.
Arguments Abrupt {A} e.

(** ** The [Response] constructor behind [c.json]

    [c.json(object, status)] ends in [new Response(text, { status, headers })]
    with a body that is never null.  The constructor throws a [RangeError]
    for a status outside 200-599 and a [TypeError] for a null body status.
    The messages are the runtime's and differ from one runtime to another;
    the two texts below stand for them, and no statement depends on them. *)

Definition null_body_status (st : Z) : bool :=
  (st =? 101) || (st =? 103) || (st =? 204) || (st =? 205) || (st =? 304).

Definition msg_status_range : string :=
  "Responses may only be constructed with status codes in the range 200 to 599, inclusive.".

Definition msg_null_body : string :=
  "Response with null body status (101, 204, 205, or 304) cannot have a body.".

(** What the constructor throws for a status, if anything. *)
Definition Response_init_error (st : Z) : option Thrown :=
  if negb ((200 <=? st) && (st <=? 599)) then Some (ErrorInstance msg_status_range)
  else if null_body_status st then Some (ErrorInstance msg_null_body)
  else None.

(** [c.json(object, status)] as a completion. *)
Definition c_json_completion (object : Json) (st : Z) : Completion Response :=
  match Response_init_error st with
  | Some e => Abrupt e
  | None => Normal (c_json object st)
  end.

(** ** The provider's interfaces *)

Module Cloudflare.

Record ScriptTag : Type := { url : string }.
Record PDFOptions : Type := { printBackground : bool }.

(** Argument of [client.browserRendering.pdf.create]. *)
Record PDFCreateParams : Type := {
  account_id : string;
  html : string;
  addScriptTag : list ScriptTag;
  pdfOptions : PDFOptions
}.

(** [new Cloudflare({ apiToken })]. *)
Record Client : Type := { apiToken : string }.

End Cloudflare.

Module Fetch.

Record RequestInit : Type := {
  method : string;
  headers : list (string * string);
  body : Json   (* the value given to [JSON.stringify] *)
}.

End Fetch.

(** The response object the provider call resolves to.  Reading its body
    ([text()], [arrayBuffer()]) is asynchronous and may itself throw. *)
Record ProviderResponse : Type := {
  provider_status : Z;
  text : Completion string;
  arrayBuffer : Completion (list byte)
}.

(** [response.ok]: the status is in the range 200-299. *)
Definition ok (r : ProviderResponse) : bool :=
  (200 <=? provider_status r) && (provider_status r <=? 299).

(** ** The observable world *)

Inductive OutboundCall : Type :=
| PdfCreate (client : Cloudflare.Client) (params : Cloudflare.PDFCreateParams)
| HttpFetch (url : string) (init : Fetch.RequestInit).

(** The outside world: what each outbound call settles with. *)
Definition Provider : Type := OutboundCall -> Completion ProviderResponse.

Inductive LogArg : Type :=
| LogText (s : string)
| LogThrown (e : Thrown).

Record World : Type := {
  outbound : list OutboundCall;          (* oldest first *)
  console : list (string * LogArg)       (* oldest first *)
}.

Definition empty_world : World := {| outbound := []; console := [] |}.

Definition with_call (w : World) (call : OutboundCall) : World :=
  {| outbound := outbound w ++ [call]; console := console w |}.

Definition with_log (w : World) (entry : string * LogArg) : World :=
  {| outbound := outbound w; console := console w ++ [entry] |}.

(** ** The monad of the handler *)

Definition Async (A : Type) : Type := World -> Completion A * World.

Definition ret {A} (a : A) : Async A := fun w => (Normal a, w).

Definition bind {A B} (m : Async A) (k : A -> Async B) : Async B :=
  fun w =>
    match m w with
    | (Normal a, w') => k a w'
    | (Abrupt e, w') => (Abrupt e, w')
    end.

(** [try { m } catch (error) { handler error }]. *)
Definition try_catch {A} (m : Async A) (handler : Thrown -> Async A) : Async A :=
  fun w =>
    match m w with
    | (Normal a, w') => (Normal a, w')
    | (Abrupt e, w') => handler e w'
    end.

(** [await p] for a promise that settles with [p]. *)
Definition await {A} (p : Completion A) : Async A := fun w => (p, w).

Definition console_error (label : string) (arg : LogArg) : Async unit :=
  fun w => (Normal tt, with_log w (label, arg)).

(** Make an outbound call: it is recorded, and settles with the provider's
    answer. *)
Definition call_provider (provider : Provider) (call : OutboundCall)
  : Async ProviderResponse :=
  fun w => (provider call, with_call w call).

(** The call [c.json(object, status)] inside the handler. *)
Definition json_call (object : Json) (st : Z) : Async Response :=
  fun w => (c_json_completion object st, w).

Declare Scope async_scope.
Delimit Scope async_scope with async.
Notation "x <- m ;; k" := (bind m (fun x => k))
  (at level 61, m at next level, right associativity) : async_scope.
Notation "m ;; k" := (bind m (fun _ => k))
  (at level 61, right associativity) : async_scope.
Local Open Scope async_scope.

(** ** Parts shared by both versions *)

Definition msg_html_required : string :=
  "HTML content is required in the request body".

Definition msg_credentials : string :=
  "Cloudflare credentials not configured. Please set CLOUDFLARE_ACCOUNT_ID and CLOUDFLARE_API_TOKEN environment variables.".

Definition msg_failed : string := "Failed to generate PDF".

Definition msg_failed_api : string := "Failed to generate PDF from Cloudflare API".

(** The double-quote character, for the quoted file name below. *)
Definition dquote : string := String "034"%char EmptyString.

(** ['attachment; filename="generated.pdf"']. *)
Definition content_disposition : string :=
  "attachment; filename=" ++ dquote ++ "generated.pdf" ++ dquote.

Definition pdf_headers : list (string * string) :=
  [("Content-Type", "application/pdf");
   ("Content-Disposition", content_disposition)].

(** The response of [c.json({ error: "HTML content is required in the
    request body" }, 400)]. *)
Definition validation_error : Response :=
  c_json (JObject [("error", JString msg_html_required)]) 400.

(** The response of [c.json({ error: "Cloudflare credentials not
    configured. ..." }, 500)]. *)
Definition configuration_error : Response :=
  c_json (JObject [("error", JString msg_credentials)]) 500.

(** [error instanceof Error ? error.message : "Unknown error"]. *)
Definition error_details (error : Thrown) : string :=
  match error with
  | ErrorInstance message => message
  | NonError _ => "Unknown error"
  end.

(** The response of [c.json({ error: "Failed to generate PDF",
    details: ... }, 500)]. *)
Definition unexpected_error (error : Thrown) : Response :=
  c_json (JObject [("error", JString msg_failed);
                   ("details", JString (error_details error))]) 500.

(** The [catch (error)] clause, the same in both versions. *)
Definition on_error (error : Thrown) : Async Response :=
  console_error "Error generating PDF:" (LogThrown error) ;;
  json_call (JObject [("error", JString msg_failed);
                      ("details", JString (error_details error))]) 500.

(** ** First version: the provider behind the [cloudflare] client library *)

Module ClientLibrary.

Definition tailwind_url : string :=
  "https://cdn.jsdelivr.net/npm/@tailwindcss/browser@4".

(** The object literal given to [client.browserRendering.pdf.create]. *)
Definition create_params (accountId html : string) : Cloudflare.PDFCreateParams :=
  {| Cloudflare.account_id := accountId;
     Cloudflare.html := html;
     Cloudflare.addScriptTag := [ {| Cloudflare.url := tailwind_url |} ];
     Cloudflare.pdfOptions := {| Cloudflare.printBackground := true |} |}.

Section Handler.

Variable provider : Provider.

(** [client.browserRendering.pdf.create(params)]: resolves to the
    provider's response, or rejects. *)
Definition browserRendering_pdf_create
    (client : Cloudflare.Client) (params : Cloudflare.PDFCreateParams)
  : Async ProviderResponse :=
  call_provider provider (PdfCreate client params).

(** The [try] block of the handler. *)
Definition handler_body (c : Context) : Async Response :=
  let body := req_valid_json c in
  let html := html body in
  match truthy html with
  | None => json_call (JObject [("error", JString msg_html_required)]) 400
  | Some html =>
      let accountId := CLOUDFLARE_ACCOUNT_ID (env c) in
      let apiToken := CLOUDFLARE_API_TOKEN (env c) in
      match truthy accountId, truthy apiToken with
      | Some accountId, Some apiToken =>
          let client := {| Cloudflare.apiToken := apiToken |} in
          response <- browserRendering_pdf_create client
                        (create_params accountId html) ;;
          pdfBuffer <- await (arrayBuffer response) ;;
          ret (new_Response pdfBuffer pdf_headers)
      | _, _ => json_call (JObject [("error", JString msg_credentials)]) 500
      end
  end.

(** [app.openapi(pdfRoute, async (c) => { try { ... } catch (error) { ... } })]. *)
Definition pdfHandler (c : Context) : Async Response :=
  try_catch (handler_body c) on_error.

End Handler.

End ClientLibrary.

(** ** Second version: the provider reached with a raw [fetch] *)

Module RawFetch.

Definition endpoint (accountId : string) : string :=
  "https://api.cloudflare.com/client/v4/accounts/" ++ accountId
    ++ "/browser-rendering/pdf".

(** The second argument of [fetch]. *)
Definition request_init (apiToken html : string) : Fetch.RequestInit :=
  {| Fetch.method := "POST";
     Fetch.headers := [("Authorization", "Bearer " ++ apiToken);
                       ("Content-Type", "application/json")];
     Fetch.body := JObject [("html", JString html)] |}.

(** The response of [c.json({ error: "Failed to generate PDF from
    Cloudflare API", details: errorText }, response.status)], when the
    status lets it be built. *)
Definition upstream_error (errorText : string) (st : Z) : Response :=
  c_json (JObject [("error", JString msg_failed_api);
                   ("details", JString errorText)]) st.

Section Handler.

Variable provider : Provider.

(** The runtime's [fetch]: resolves to a response of any status, or
    rejects. *)
Definition fetch (url : string) (init : Fetch.RequestInit) : Async ProviderResponse :=
  call_provider provider (HttpFetch url init).

(** The [try] block of the handler. *)
Definition handler_body (c : Context) : Async Response :=
  let body := req_valid_json c in
  let html := html body in
  match truthy html with
  | None => json_call (JObject [("error", JString msg_html_required)]) 400
  | Some html =>
      let accountId := CLOUDFLARE_ACCOUNT_ID (env c) in
      let apiToken := CLOUDFLARE_API_TOKEN (env c) in
      match truthy accountId, truthy apiToken with
      | Some accountId, Some apiToken =>
          response <- fetch (endpoint accountId) (request_init apiToken html) ;;
          if negb (ok response) then
            errorText <- await (text response) ;;
            console_error "Cloudflare API error:" (LogText errorText) ;;
            json_call (JObject [("error", JString msg_failed_api);
                                ("details", JString errorText)])
                      (provider_status response)
          else
            pdfBuffer <- await (arrayBuffer response) ;;
            ret (new_Response pdfBuffer pdf_headers)
      | _, _ => json_call (JObject [("error", JString msg_credentials)]) 500
      end
  end.

Definition pdfHandler (c : Context) : Async Response :=
  try_catch (handler_body c) on_error.

End Handler.

End RawFetch.

(** ** The two versions side by side *)

Inductive Version : Type := ClientLibraryVersion | RawFetchVersion.

Definition handler_body (v : Version) : Provider -> Context -> Async Response :=
  match v with
  | ClientLibraryVersion => ClientLibrary.handler_body
  | RawFetchVersion => RawFetch.handler_body
  end.

Definition pdfHandler (v : Version) : Provider -> Context -> Async Response :=
  match v with
  | ClientLibraryVersion => ClientLibrary.pdfHandler
  | RawFetchVersion => RawFetch.pdfHandler
  end.

(** The outbound call each version makes for a given account identifier,
    credential and html. *)
Definition provider_call (v : Version) (accountId apiToken html : string) : OutboundCall :=
  match v with
  | ClientLibraryVersion =>
      PdfCreate {| Cloudflare.apiToken := apiToken |}
                (ClientLibrary.create_params accountId html)
  | RawFetchVersion =>
      HttpFetch (RawFetch.endpoint accountId) (RawFetch.request_init apiToken html)
  end.

(** ** Vocabulary of the statements *)

(** The html a call carries. *)
Definition carried_html (call : OutboundCall) : option string :=
  match call with
  | PdfCreate _ params => Some (Cloudflare.html params)
  | HttpFetch _ init =>
      match field "html" (Fetch.body init) with
      | Some (JString s) => Some s
      | _ => None
      end
  end.

(** The fixed rendering options: a script tag for the Tailwind browser
    build, and [printBackground: true]. *)
Definition carries_rendering_options (call : OutboundCall) : bool :=
  match call with
  | PdfCreate _ params =>
      match Cloudflare.addScriptTag params with
      | [tag] => String.eqb (Cloudflare.url tag) ClientLibrary.tailwind_url
      | _ => false
      end
      && Cloudflare.printBackground (Cloudflare.pdfOptions params)
  | HttpFetch _ init =>
      match field "addScriptTag" (Fetch.body init) with
      | Some (JArray (_ :: _)) => true
      | _ => false
      end
      && match field "pdfOptions" (Fetch.body init) with
         | Some options =>
             match field "printBackground" options with
             | Some (JBool true) => true
             | _ => false
             end
         | None => false
         end
  end.

(** Whether the handler goes on to read the binary body of a response it
    received: always in the client-library version, only for an [ok]
    response in the raw-fetch version. *)
Definition reads_payload (v : Version) (r : ProviderResponse) : bool :=
  match v with
  | ClientLibraryVersion => true
  | RawFetchVersion => ok r
  end.

(** The ways the exchange with the provider can throw: the call itself
    rejects, or reading the body of its response does. *)
Inductive provider_throws (v : Version) : Completion ProviderResponse -> Thrown -> Prop :=
| call_rejects e :
    provider_throws v (Abrupt e) e
| payload_unreadable r e :
    reads_payload v r = true -> arrayBuffer r = Abrupt e ->
    provider_throws v (Normal r) e
| text_unreadable r e :
    reads_payload v r = false -> text r = Abrupt e ->
    provider_throws v (Normal r) e.

(** The two outcomes of the specification's [ConversionResult], read off a
    response: [Success] is a 200 with binary body, [Failure] a response of
    another status whose body is an [ErrorResponseSchema] object. *)
Definition is_success (r : Response) : bool :=
  (status r =? 200)
  && match body r with BinaryBody _ => true | JsonBody _ => false end.

Definition is_failure (r : Response) : bool :=
  negb (status r =? 200)
  && match body r with JsonBody j => ErrorResponseSchema j | BinaryBody _ => false end.

(** Replace an empty-string configuration value by an unset one. *)
Definition unset_if_empty (x : option string) : option string :=
  match x with
  | Some s => if String.eqb s "" then None else Some s
  | None => None
  end.

Definition unset_empty (e : Env) : Env :=
  {| CLOUDFLARE_ACCOUNT_ID := unset_if_empty (CLOUDFLARE_ACCOUNT_ID e);
     CLOUDFLARE_API_TOKEN := unset_if_empty (CLOUDFLARE_API_TOKEN e) |}.

(** The request reaches the provider: html and both configuration values
    are non-empty strings. *)
Definition reaches_provider (c : Context) (h a t : string) : Prop :=
  truthy (html (req_valid_json c)) = Some h /\
  truthy (CLOUDFLARE_ACCOUNT_ID (env c)) = Some a /\
  truthy (CLOUDFLARE_API_TOKEN (env c)) = Some t.

(** The provider call of the request returned the binary payload [bytes]. *)
Definition delivered (v : Version) (provider : Provider) (c : Context)
    (bytes : list byte) : Prop :=
  exists h a t r,
    reaches_provider c h a t /\
    provider (provider_call v a t h) = Normal r /\
    reads_payload v r = true /\
    arrayBuffer r = Normal bytes.

(** The six ways through the handler, each with the response it ends in
    and the world it leaves. *)
Inductive Path (v : Version) (provider : Provider) (c : Context) (w : World)
  : Response -> World -> Prop :=
| path_invalid :
    truthy (html (req_valid_json c)) = None ->
    Path v provider c w validation_error w
| path_unconfigured h :
    truthy (html (req_valid_json c)) = Some h ->
    truthy (CLOUDFLARE_ACCOUNT_ID (env c)) = None \/
    truthy (CLOUDFLARE_API_TOKEN (env c)) = None ->
    Path v provider c w configuration_error w
| path_thrown h a t e :
    reaches_provider c h a t ->
    provider_throws v (provider (provider_call v a t h)) e ->
    Path v provider c w (unexpected_error e)
      (with_log (with_call w (provider_call v a t h))
                ("Error generating PDF:", LogThrown e))
| path_upstream h a t r errorText :
    reaches_provider c h a t ->
    v = RawFetchVersion ->
    provider (provider_call v a t h) = Normal r ->
    ok r = false ->
    text r = Normal errorText ->
    Response_init_error (provider_status r) = None ->
    Path v provider c w (RawFetch.upstream_error errorText (provider_status r))
      (with_log (with_call w (provider_call v a t h))
                ("Cloudflare API error:", LogText errorText))
| path_unsendable h a t r errorText e :
    reaches_provider c h a t ->
    v = RawFetchVersion ->
    provider (provider_call v a t h) = Normal r ->
    ok r = false ->
    text r = Normal errorText ->
    Response_init_error (provider_status r) = Some e ->
    Path v provider c w (unexpected_error e)
      (with_log
         (with_log (with_call w (provider_call v a t h))
                   ("Cloudflare API error:", LogText errorText))
         ("Error generating PDF:", LogThrown e))
| path_delivered h a t r bytes :
    reaches_provider c h a t ->
    provider (provider_call v a t h) = Normal r ->
    reads_payload v r = true ->
    arrayBuffer r = Normal bytes ->
    Path v provider c w (new_Response bytes pdf_headers)
      (with_call w (provider_call v a t h)).

(** ** Sample inputs *)

Definition request_of (h : option string) (e : Env) : Context :=
  {| req_valid_json := {| html := h |}; env := e |}.

Definition sample_env : Env :=
  {| CLOUDFLARE_ACCOUNT_ID := Some "acct"; CLOUDFLARE_API_TOKEN := Some "token" |}.

Definition no_env : Env :=
  {| CLOUDFLARE_ACCOUNT_ID := None; CLOUDFLARE_API_TOKEN := None |}.

Definition sample_html : string := "<h1>Hi</h1>".

Definition pdf_magic : list byte := [x25; x50; x44; x46].

Definition pdf_response (bytes : list byte) : ProviderResponse :=
  {| provider_status := 200;
     text := Normal "";
     arrayBuffer := Normal bytes |}.

Definition rejected_response (st : Z) (message : string) : ProviderResponse :=
  {| provider_status := st;
     text := Normal message;
     arrayBuffer := Normal [] |}.

Definition answering (r : ProviderResponse) : Provider := fun _ => Normal r.

Definition throwing (e : Thrown) : Provider := fun _ => Abrupt e.

(** ** The declared route

    [pdfRoute = createRoute({ method: "post", path: "/pdf", request: ...,
    responses: { 200: ..., 400: ..., 500: ... } })], the same in both
    versions up to its description text. *)

(** [PDFRequestSchema = z.object({ html: z.string() })]: the input must be
    an object whose [html] is a string (the empty string included); other
    keys are dropped from the parsed value. *)
Definition PDFRequestSchema (j : Json) : option PDFRequest :=
  match j with
  | JObject _ =>
      match field "html" j with
      | Some (JString s) => Some {| html := Some s |}
      | _ => None
      end
  | _ => None
  end.

(** The schema of a declared response body: [{ type: "string", format:
    "binary" }], or a zod schema. *)
Inductive BodySchema : Type :=
| BinarySchema
| ZodSchema (accepts : Json -> bool).

(** One entry of [responses]: its [content] by media type, and the names of
    its declared [headers]. *)
Record ResponseDecl : Type := {
  content : list (string * BodySchema);
  declared_headers : list string
}.

Record Route : Type := {
  method : string;
  path : string;
  request_content : list (string * (Json -> option PDFRequest));
  responses : list (Z * ResponseDecl)
}.

Definition pdfRoute : Route :=
  {| method := "post";
     path := "/pdf";
     request_content := [("application/json", PDFRequestSchema)];
     responses :=
       [(200, {| content := [("application/pdf", BinarySchema)];
                 declared_headers := ["Content-Disposition"] |});
        (400, {| content := [("application/json", ZodSchema ErrorResponseSchema)];
                 declared_headers := [] |});
        (500, {| content := [("application/json", ZodSchema ErrorResponseSchema)];
                 declared_headers := [] |})] |}.

Fixpoint declared_response (st : Z) (rs : list (Z * ResponseDecl)) : option ResponseDecl :=
  match rs with
  | [] => None
  | (st', decl) :: rest => if st' =? st then Some decl else declared_response st rest
  end.

Definition matches_schema (s : BodySchema) (b : Body) : bool :=
  match s, b with
  | BinarySchema, BinaryBody _ => true
  | ZodSchema accepts, JsonBody j => accepts j
  | _, _ => false
  end.

(** A response conforms to a route when its status is declared, its
    [Content-Type] is one of the media types declared for that status with a
    body matching the schema given there, and every declared header is
    present. *)
Definition conforms (route : Route) (resp : Response) : bool :=
  match declared_response (status resp) (responses route) with
  | None => false
  | Some decl =>
      match header "Content-Type" (headers resp) with
      | None => false
      | Some ct =>
          existsb (fun entry =>
                     (String.eqb (fst entry) ct
                      && matches_schema (snd entry) (body resp))%bool)
                  (content decl)
      end
      && forallb (fun name =>
                    match header name (headers resp) with
                    | Some _ => true
                    | None => false
                    end)
                 (declared_headers decl)
  end.

(** ** The [/doc] endpoint of the first version *)

Module OpenAPIDoc.

(** The two properties of [new URL(c.req.url)] the handler reads:
    [protocol] (with its colon, as in "https:") and [host] (with the port
    when there is one). *)
Record URL : Type := { protocol : string; host : string }.

(** [{ ...object, [key]: value }] on the fields of an object: the value
    replaces the one under [key] where it stands, or is added last. *)
Fixpoint spread_with (fields : list (string * Json)) (key : string) (value : Json)
  : list (string * Json) :=
  match fields with
  | [] => [(key, value)]
  | (k, v) :: rest =>
      if String.eqb k key then (k, value) :: rest
      else (k, v) :: spread_with rest key value
  end.

(** The argument of [app.getOpenAPIDocument]. *)
Definition document_config : Json :=
  JObject
    [("openapi", JString "3.0.0");
     ("info", JObject
        [("version", JString "1.0.0");
         ("title", JString "TSX PDF API");
         ("description",
          JString "API for converting HTML to PDF using Cloudflare Browser Rendering")])].

Definition current_server (baseUrl : string) : Json :=
  JObject [("url", JString baseUrl); ("description", JString "Current server")].

Section Handler.

(** [app.getOpenAPIDocument]: the generator of the library, which returns
    the fields of the document or throws. *)
Variable getOpenAPIDocument : Json -> Completion (list (string * Json)).

(** [app.get("/doc", (c) => { ... })]: no [try]/[catch] here. *)
Definition docHandler (url : URL) : Completion Response :=
  let baseUrl := protocol url ++ "//" ++ host url in
  match getOpenAPIDocument document_config with
  | Abrupt e => Abrupt e
  | Normal doc =>
      c_json_completion
        (JObject (spread_with doc "servers" (JArray [current_server baseUrl])))
        200
  end.

End Handler.

End OpenAPIDoc.

(** A generator for the examples: it hands back the fields of its
    configuration, followed by a [servers] of its own and by [paths]. *)
Definition sample_generator (config : Json) : Completion (list (string * Json)) :=
  Normal ((match config with JObject fields => fields | _ => [] end)
            ++ [("servers", JArray [JObject [("url", JString "http://localhost:8787")]]);
                ("paths", JObject [])])%list.

Definition sample_url : OpenAPIDoc.URL :=
  {| OpenAPIDoc.protocol := "https:"; OpenAPIDoc.host := "pdf.example.com" |}.

(** ** The validation in front of the handler

    [app.openapi(pdfRoute, handler)] runs the route's request validation
    before the handler.  That is code of [@hono/zod-openapi] and
    [@hono/zod-validator], not of the repository; it is written here from
    the libraries' behaviour for a route whose body is not marked
    [required]:

    - a request without a JSON content type is not validated, and the
      handler finds [c.req.valid("json")] to be the empty object;
    - a request with a JSON content type has its parsed body checked
      against [PDFRequestSchema]; when the check fails the handler does not
      run and the answer is [c.json({ success: false, error }, 400)], with
      the [ZodError] as [error].

    A body that is not well-formed JSON is left out.  The serialised
    [ZodError] depends on the library's version and is a variable. *)



Section Endpoint.

Variable zod_error : Json -> Json.



End Endpoint.


(** * Properties *)

(** ** Truthiness *)

Lemma truthy_spec (x : option string) (s : string) :
  truthy x = Some s <-> x = Some s /\ s <> "".
Proof.
  unfold truthy. destruct x as [s0|].
  - destruct (String.eqb_spec s0 "") as [E|E]; split.
    + discriminate.
    + intros [H1 H2]. inversion H1; subst. contradiction.
    + intros H. inversion H; subst. split; [reflexivity | assumption].
    + intros [H1 _]. assumption.
  - split; [discriminate | intros [H _]; discriminate].
Qed.

Lemma truthy_None (x : option string) :
  truthy x = None <-> x = None \/ x = Some "".
Proof.
  unfold truthy. destruct x as [s0|].
  - destruct (String.eqb_spec s0 "") as [E|E]; split.
    + intros _. right. now subst.
    + reflexivity.
    + discriminate.
    + intros [H|H]; [discriminate | inversion H; contradiction].
  - split; [now left | reflexivity].
Qed.

(** [!x], spelled out. *)
Lemma not_spec (x : option string) :
  not_ x = true <-> x = None \/ x = Some "".
Proof.
  rewrite <- truthy_None. unfold not_.
  destruct (truthy x); split; (reflexivity || discriminate).
Qed.

(** A request reaches the provider exactly when its html and both
    configuration values are present and non-empty. *)
Lemma reaches_provider_spec (c : Context) (h a t : string) :
  reaches_provider c h a t <->
  (html (req_valid_json c) = Some h /\ h <> "") /\
  (CLOUDFLARE_ACCOUNT_ID (env c) = Some a /\ a <> "") /\
  (CLOUDFLARE_API_TOKEN (env c) = Some t /\ t <> "").
Proof.
  unfold reaches_provider. rewrite !truthy_spec. reflexivity.
Qed.

Lemma truthy_unset_if_empty (x : option string) :
  truthy (unset_if_empty x) = truthy x.
Proof.
  destruct x as [s|]; [|reflexivity].
  cbn. destruct (String.eqb_spec s "") as [E|E]; [reflexivity|].
  cbn. destruct (String.eqb_spec s ""); [contradiction | reflexivity].
Qed.

(** ** The handler, path by path *)

Ltac unfold_handler :=
  unfold pdfHandler, handler_body,
    ClientLibrary.pdfHandler, RawFetch.pdfHandler,
    ClientLibrary.handler_body, RawFetch.handler_body,
    ClientLibrary.browserRendering_pdf_create, RawFetch.fetch,
    provider_call, reads_payload,
    try_catch, on_error, bind, ret, await, call_provider, console_error in *.

Section Paths.

Variables (v : Version) (provider : Provider) (c : Context) (w : World).

(** The handler is its [try] block, with a thrown value turned into the
    response of the [catch] clause. *)
Lemma pdfHandler_try_catch :
  pdfHandler v provider c w =
  match handler_body v provider c w with
  | (Normal resp, w') => (Normal resp, w')
  | (Abrupt e, w') =>
      (Normal (unexpected_error e),
       with_log w' ("Error generating PDF:", LogThrown e))
  end.
Proof.
  destruct v; unfold_handler;
    match goal with |- context [match ?m w with _ => _ end] =>
      destruct (m w) as [[resp|e] w'] end; reflexivity.
Qed.

Lemma body_invalid :
  truthy (html (req_valid_json c)) = None ->
  handler_body v provider c w = (Normal validation_error, w).
Proof.
  intros H. destruct v; unfold_handler; cbv zeta; rewrite H; reflexivity.
Qed.

Lemma body_unconfigured (h : string) :
  truthy (html (req_valid_json c)) = Some h ->
  truthy (CLOUDFLARE_ACCOUNT_ID (env c)) = None \/
  truthy (CLOUDFLARE_API_TOKEN (env c)) = None ->
  handler_body v provider c w = (Normal configuration_error, w).
Proof.
  intros H [E|E]; destruct v; unfold_handler; cbv zeta; rewrite H, E;
    try reflexivity;
    destruct (truthy (CLOUDFLARE_ACCOUNT_ID (env c))); reflexivity.
Qed.

Section Called.

Variables h a t : string.
Hypothesis Hhtml : truthy (html (req_valid_json c)) = Some h.
Hypothesis Hacc : truthy (CLOUDFLARE_ACCOUNT_ID (env c)) = Some a.
Hypothesis Htok : truthy (CLOUDFLARE_API_TOKEN (env c)) = Some t.

Local Abbreviation call := (provider_call v a t h).

Lemma body_call_rejects (e : Thrown) :
  provider call = Abrupt e ->
  handler_body v provider c w = (Abrupt e, with_call w call).
Proof.
  intros H. destruct v; unfold_handler; cbv zeta;
    rewrite Hhtml, Hacc, Htok, H; reflexivity.
Qed.

Lemma body_payload (r : ProviderResponse) :
  provider call = Normal r ->
  reads_payload v r = true ->
  handler_body v provider c w =
  (match arrayBuffer r with
   | Normal pdfBuffer => Normal (new_Response pdfBuffer pdf_headers)
   | Abrupt e => Abrupt e
   end, with_call w call).
Proof.
  intros H Hr. destruct v; unfold_handler; cbv zeta;
    rewrite Hhtml, Hacc, Htok, H; try rewrite Hr; cbn;
    destruct (arrayBuffer r); reflexivity.
Qed.

Lemma body_not_ok (r : ProviderResponse) :
  provider call = Normal r ->
  reads_payload v r = false ->
  v = RawFetchVersion /\
  handler_body v provider c w =
  match text r with
  | Normal errorText =>
      (match Response_init_error (provider_status r) with
       | None => Normal (RawFetch.upstream_error errorText (provider_status r))
       | Some e => Abrupt e
       end,
       with_log (with_call w call) ("Cloudflare API error:", LogText errorText))
  | Abrupt e => (Abrupt e, with_call w call)
  end.
Proof.
  intros H Hr. destruct v; [discriminate Hr|].
  split; [reflexivity|].
  unfold_handler; unfold json_call, c_json_completion; cbv zeta.
  rewrite Hhtml, Hacc, Htok, H, Hr; cbn [negb].
  destruct (text r); [|reflexivity].
  destruct (Response_init_error (provider_status r)); reflexivity.
Qed.

Lemma body_throws (e : Thrown) :
  provider_throws v (provider call) e ->
  handler_body v provider c w = (Abrupt e, with_call w call).
Proof.
  intros H. inversion H as [e' E | r e' Hr Hb E | r e' Hr Ht E]; subst e'.
  - apply body_call_rejects. now symmetry.
  - rewrite (body_payload r); [now rewrite Hb | now symmetry | assumption].
  - destruct (body_not_ok r) as [_ ->]; [now symmetry | assumption |].
    now rewrite Ht.
Qed.

End Called.

End Paths.

(** Every run of the handler follows one of the six paths; in particular
    the handler always returns a response and never lets a thrown value
    escape. *)
Lemma pdfHandler_path (v : Version) (provider : Provider) (c : Context) (w : World) :
  exists resp w',
    pdfHandler v provider c w = (Normal resp, w') /\ Path v provider c w resp w'.
Proof.
  rewrite pdfHandler_try_catch.
  destruct (truthy (html (req_valid_json c))) as [h|] eqn:Hh.
  2:{ rewrite body_invalid by assumption.
      do 2 eexists. split; [reflexivity | now apply path_invalid]. }
  destruct (truthy (CLOUDFLARE_ACCOUNT_ID (env c))) as [a|] eqn:Ha.
  2:{ rewrite (body_unconfigured _ _ _ _ h) by auto.
      do 2 eexists. split; [reflexivity | apply (path_unconfigured _ _ _ _ h); auto]. }
  destruct (truthy (CLOUDFLARE_API_TOKEN (env c))) as [t|] eqn:Ht.
  2:{ rewrite (body_unconfigured _ _ _ _ h) by auto.
      do 2 eexists. split; [reflexivity | apply (path_unconfigured _ _ _ _ h); auto]. }
  assert (R : reaches_provider c h a t) by (repeat split; assumption).
  destruct (provider (provider_call v a t h)) as [r|e] eqn:Hp.
  - destruct (reads_payload v r) eqn:Hr.
    + rewrite (body_payload _ _ _ _ h a t Hh Ha Ht r Hp Hr).
      destruct (arrayBuffer r) as [bytes|e] eqn:Hb.
      * do 2 eexists. split; [reflexivity|].
        now apply (path_delivered _ _ _ _ h a t r bytes).
      * do 2 eexists. split; [reflexivity|].
        apply path_thrown; [assumption|]. rewrite Hp.
        now apply payload_unreadable.
    + destruct (body_not_ok v provider c w h a t Hh Ha Ht r Hp Hr) as [Hv ->].
      destruct (text r) as [s|e] eqn:Hx.
      * assert (Hok : ok r = false) by (subst v; exact Hr).
        destruct (Response_init_error (provider_status r)) as [e|] eqn:Hs.
        -- do 2 eexists. split; [reflexivity|].
           now apply (path_unsendable v provider c w h a t r s e).
        -- do 2 eexists. split; [reflexivity|].
           now apply path_upstream.
      * do 2 eexists. split; [reflexivity|].
        apply path_thrown; [assumption|]. rewrite Hp.
        now apply text_unreadable.
  - rewrite (body_call_rejects _ _ _ _ h a t Hh Ha Ht e Hp).
    do 2 eexists. split; [reflexivity|].
    apply path_thrown; [assumption|]. rewrite Hp. constructor.
Qed.

(** The paths exclude one another where it matters: a request that reaches
    the provider does so with one html and one pair of credentials. *)
Lemma reaches_provider_unique (c : Context) (h a t h' a' t' : string) :
  reaches_provider c h a t -> reaches_provider c h' a' t' ->
  h = h' /\ a = a' /\ t = t'.
Proof.
  intros (H1 & H2 & H3) (H1' & H2' & H3').
  rewrite H1 in H1'. rewrite H2 in H2'. rewrite H3 in H3'.
  inversion H1'. inversion H2'. inversion H3'. auto.
Qed.

(** The outbound calls a path adds to the world: none, or the one call of
    the request. *)
Lemma Path_outbound v provider c w resp w' :
  Path v provider c w resp w' ->
  (outbound w' = outbound w /\ forall h a t, ~ reaches_provider c h a t) \/
  (exists h a t, reaches_provider c h a t /\
                 outbound w' = (outbound w ++ [provider_call v a t h])%list).
Proof.
  intros P.
  destruct P as [H | h H E | h a t e R _ | h a t r s R _ _ _ _ _
                | h a t r s e R _ _ _ _ _ | h a t r b R _ _ _].
  - left. split; [reflexivity|]. intros h a t (H1 & _). congruence.
  - left. split; [reflexivity|]. intros h' a t (_ & H2 & H3).
    destruct E; congruence.
  - right. exists h, a, t. auto.
  - right. exists h, a, t. auto.
  - right. exists h, a, t. auto.
  - right. exists h, a, t. auto.
Qed.

(** What the handler answers on the three paths that reach the provider. *)
Lemma run_thrown v provider c w h a t e :
  reaches_provider c h a t ->
  provider_throws v (provider (provider_call v a t h)) e ->
  pdfHandler v provider c w =
  (Normal (unexpected_error e),
   with_log (with_call w (provider_call v a t h))
            ("Error generating PDF:", LogThrown e)).
Proof.
  intros (Hh & Ha & Ht) H.
  rewrite pdfHandler_try_catch.
  now rewrite (body_throws v provider c w h a t Hh Ha Ht e H).
Qed.

Lemma run_delivered v provider c w h a t r bytes :
  reaches_provider c h a t ->
  provider (provider_call v a t h) = Normal r ->
  reads_payload v r = true ->
  arrayBuffer r = Normal bytes ->
  pdfHandler v provider c w =
  (Normal (new_Response bytes pdf_headers), with_call w (provider_call v a t h)).
Proof.
  intros (Hh & Ha & Ht) Hp Hr Hb.
  rewrite pdfHandler_try_catch.
  rewrite (body_payload v provider c w h a t Hh Ha Ht r Hp Hr).
  now rewrite Hb.
Qed.

Lemma run_upstream v provider c w h a t r errorText :
  reaches_provider c h a t ->
  provider (provider_call v a t h) = Normal r ->
  reads_payload v r = false ->
  text r = Normal errorText ->
  Response_init_error (provider_status r) = None ->
  pdfHandler v provider c w =
  (Normal (RawFetch.upstream_error errorText (provider_status r)),
   with_log (with_call w (provider_call v a t h))
            ("Cloudflare API error:", LogText errorText)).
Proof.
  intros (Hh & Ha & Ht) Hp Hr Hx Hs.
  rewrite pdfHandler_try_catch.
  destruct (body_not_ok v provider c w h a t Hh Ha Ht r Hp Hr) as [_ ->].
  now rewrite Hx, Hs.
Qed.

Lemma run_unsendable v provider c w h a t r errorText e :
  reaches_provider c h a t ->
  provider (provider_call v a t h) = Normal r ->
  reads_payload v r = false ->
  text r = Normal errorText ->
  Response_init_error (provider_status r) = Some e ->
  pdfHandler v provider c w =
  (Normal (unexpected_error e),
   with_log
     (with_log (with_call w (provider_call v a t h))
               ("Cloudflare API error:", LogText errorText))
     ("Error generating PDF:", LogThrown e)).
Proof.
  intros (Hh & Ha & Ht) Hp Hr Hx Hs.
  rewrite pdfHandler_try_catch.
  destruct (body_not_ok v provider c w h a t Hh Ha Ht r Hp Hr) as [_ ->].
  now rewrite Hx, Hs.
Qed.

(** When the constructor behind [c.json] throws, and what. *)
Lemma Response_init_error_None (st : Z) :
  Response_init_error st = None <->
  200 <= st <= 599 /\ st <> 204 /\ st <> 205 /\ st <> 304.
Proof.
  unfold Response_init_error, null_body_status.
  destruct (Z.leb_spec 200 st), (Z.leb_spec st 599); cbn [andb negb];
    try (split; [discriminate | lia]).
  destruct (Z.eqb_spec st 101); [lia|].
  destruct (Z.eqb_spec st 103); [lia|].
  destruct (Z.eqb_spec st 204); cbn [orb]; [split; [discriminate | lia]|].
  destruct (Z.eqb_spec st 205); cbn [orb]; [split; [discriminate | lia]|].
  destruct (Z.eqb_spec st 304); cbn [orb]; [split; [discriminate | lia]|].
  split; [lia | reflexivity].
Qed.

Lemma Response_init_error_message (st : Z) (e : Thrown) :
  Response_init_error st = Some e -> exists message, e = ErrorInstance message.
Proof.
  unfold Response_init_error.
  destruct (negb _); [intros H; inversion H; eauto|].
  destruct (null_body_status st); [intros H; inversion H; eauto | discriminate].
Qed.

(** For a status outside 200-299, [c.json] can answer exactly for 300-599
    other than 304. *)
Lemma not_ok_sendable (r : ProviderResponse) :
  ok r = false ->
  (Response_init_error (provider_status r) = None <->
   300 <= provider_status r <= 599 /\ provider_status r <> 304).
Proof.
  unfold ok. intros H. rewrite Response_init_error_None.
  apply Bool.andb_false_iff in H.
  destruct H as [H|H]; [apply Z.leb_gt in H | apply Z.leb_gt in H]; lia.
Qed.

Lemma run_invalid v provider c w :
  truthy (html (req_valid_json c)) = None ->
  pdfHandler v provider c w = (Normal validation_error, w).
Proof.
  intros H. rewrite pdfHandler_try_catch. now rewrite body_invalid.
Qed.

Lemma run_unconfigured v provider c w h :
  truthy (html (req_valid_json c)) = Some h ->
  truthy (CLOUDFLARE_ACCOUNT_ID (env c)) = None \/
  truthy (CLOUDFLARE_API_TOKEN (env c)) = None ->
  pdfHandler v provider c w = (Normal configuration_error, w).
Proof.
  intros H E. rewrite pdfHandler_try_catch.
  now rewrite (body_unconfigured v provider c w h).
Qed.

Lemma run_outbound v provider c w h a t :
  reaches_provider c h a t ->
  outbound (snd (pdfHandler v provider c w)) =
  (outbound w ++ [provider_call v a t h])%list.
Proof.
  intros R.
  destruct (pdfHandler_path v provider c w) as (resp & w' & E & P).
  rewrite E. cbn [snd].
  destruct (Path_outbound _ _ _ _ _ _ P) as [[_ N] | (h' & a' & t' & R' & O)].
  - exfalso. exact (N h a t R).
  - destruct (reaches_provider_unique c h a t h' a' t' R R') as (-> & -> & ->).
    exact O.
Qed.

(** ** The claims *)

(** C1, as stated, fails in the raw-fetch version: for a request with
    non-empty html and both configuration values present, the one call it
    sends carries the html but no rendering options. *)
Lemma raw_fetch_sends_no_rendering_options :
  reaches_provider (request_of (Some sample_html) sample_env)
                   sample_html "acct" "token" /\
  ~ (exists call,
        outbound (snd (pdfHandler RawFetchVersion
                         (answering (pdf_response pdf_magic))
                         (request_of (Some sample_html) sample_env)
                         empty_world)) = [call] /\
        carried_html call = Some sample_html /\
        carries_rendering_options call = true).
Proof.
  split; [repeat split; reflexivity|].
  intros (call & H1 & _ & H3).
  vm_compute in H1. inversion H1; subst call.
  vm_compute in H3. discriminate H3.
Qed.

(** C1 (amended).  For every request with non-empty html and both
    configuration values present, the gateway makes exactly one outbound
    call to the rendering provider, whatever the provider answers, and that
    call carries the request's html.  In the client-library version the
    call also carries the fixed rendering options (a script tag for the
    Tailwind browser build, [printBackground: true]); in the raw-fetch
    version the JSON body of the call is the html alone. *)
Theorem one_provider_call v provider c w h a t :
  reaches_provider c h a t ->
  outbound (snd (pdfHandler v provider c w)) =
    (outbound w ++ [provider_call v a t h])%list /\
  carried_html (provider_call v a t h) = Some h /\
  provider_call ClientLibraryVersion a t h =
    PdfCreate {| Cloudflare.apiToken := t |}
      {| Cloudflare.account_id := a;
         Cloudflare.html := h;
         Cloudflare.addScriptTag :=
           [ {| Cloudflare.url := "https://cdn.jsdelivr.net/npm/@tailwindcss/browser@4" |} ];
         Cloudflare.pdfOptions := {| Cloudflare.printBackground := true |} |} /\
  carries_rendering_options (provider_call ClientLibraryVersion a t h) = true /\
  provider_call RawFetchVersion a t h =
    HttpFetch ("https://api.cloudflare.com/client/v4/accounts/" ++ a
                 ++ "/browser-rendering/pdf")
      {| Fetch.method := "POST";
         Fetch.headers := [("Authorization", "Bearer " ++ t);
                           ("Content-Type", "application/json")];
         Fetch.body := JObject [("html", JString h)] |}.
Proof.
  intros R. split; [now apply run_outbound|].
  split; [destruct v; reflexivity|].
  split; [reflexivity|]. split; reflexivity.
Qed.

Lemma one_provider_call_witness :
  reaches_provider (request_of (Some sample_html) sample_env)
                   sample_html "acct" "token" /\
  outbound (snd (pdfHandler ClientLibraryVersion
                   (throwing (ErrorInstance "403 Forbidden"))
                   (request_of (Some sample_html) sample_env)
                   empty_world))
  = [provider_call ClientLibraryVersion "acct" "token" sample_html].
Proof.
  assert (R : reaches_provider (request_of (Some sample_html) sample_env)
                               sample_html "acct" "token")
    by (repeat split; reflexivity).
  split; [exact R|].
  exact (proj1 (one_provider_call ClientLibraryVersion
                  (throwing (ErrorInstance "403 Forbidden"))
                  (request_of (Some sample_html) sample_env)
                  empty_world sample_html "acct" "token" R)).
Defined.

(** C2.  For every request where the provider call returns a binary
    payload (in the raw-fetch version: an [ok] response whose body is
    read), the gateway answers with status 200, [Content-Type:
    application/pdf], [Content-Disposition: attachment;
    filename="generated.pdf"], and a body that is exactly the provider's
    bytes. *)
Theorem payload_passthrough v provider c w h a t r bytes :
  reaches_provider c h a t ->
  provider (provider_call v a t h) = Normal r ->
  reads_payload v r = true ->
  arrayBuffer r = Normal bytes ->
  exists resp,
    fst (pdfHandler v provider c w) = Normal resp /\
    status resp = 200 /\
    header "Content-Type" (headers resp) = Some "application/pdf" /\
    header "Content-Disposition" (headers resp)
      = Some ("attachment; filename=" ++ dquote ++ "generated.pdf" ++ dquote) /\
    body resp = BinaryBody bytes.
Proof.
  intros R Hp Hr Hb.
  rewrite (run_delivered v provider c w h a t r bytes R Hp Hr Hb).
  eexists. split; [reflexivity|]. repeat split; reflexivity.
Qed.

Lemma payload_passthrough_witness :
  exists resp,
    fst (pdfHandler RawFetchVersion (answering (pdf_response pdf_magic))
           (request_of (Some sample_html) sample_env) empty_world)
      = Normal resp /\
    status resp = 200 /\
    header "Content-Type" (headers resp) = Some "application/pdf" /\
    header "Content-Disposition" (headers resp)
      = Some ("attachment; filename=" ++ dquote ++ "generated.pdf" ++ dquote) /\
    body resp = BinaryBody pdf_magic.
Proof.
  apply (payload_passthrough RawFetchVersion (answering (pdf_response pdf_magic))
           (request_of (Some sample_html) sample_env) empty_world
           sample_html "acct" "token" (pdf_response pdf_magic) pdf_magic).
  - repeat split; reflexivity.
  - reflexivity.
  - reflexivity.
  - reflexivity.
Defined.

(** C3, as stated, fails in the raw-fetch version: when the provider
    answers 401, the gateway's status is 401, not 500. *)
Lemma upstream_status_is_passed_through :
  reaches_provider (request_of (Some sample_html) sample_env)
                   sample_html "acct" "token" /\
  ok (rejected_response 401 "Unauthorized") = false /\
  exists resp,
    fst (pdfHandler RawFetchVersion
           (answering (rejected_response 401 "Unauthorized"))
           (request_of (Some sample_html) sample_env) empty_world)
      = Normal resp /\
    status resp = 401 /\
    status resp <> 500.
Proof.
  split; [repeat split; reflexivity|].
  split; [reflexivity|].
  eexists. split; [reflexivity|]. split; [reflexivity | discriminate].
Qed.

(** C3 (amended).  For every request where the exchange with the provider
    throws (the call rejects: a network error, or, in the client-library
    version, any failed request; or reading the response body throws), the
    gateway's status is 500 and the JSON body holds [error: "Failed to
    generate PDF"] and [details]: the message of the thrown error when it is
    an [Error] instance, "Unknown error" otherwise.  In the raw-fetch
    version, a provider response outside 200-299 whose text is read is
    answered with the provider's own status, [error: "Failed to generate PDF
    from Cloudflare API"] and [details]: the provider's text, when that
    status is one of 300-599 other than 304.  For the remaining statuses
    (below 200, 304, above 599) [c.json] cannot build the response; the
    error it throws is caught, and the answer is again 500 with [error:
    "Failed to generate PDF"] and a [details]. *)
Theorem provider_failure_response v provider c w h a t :
  reaches_provider c h a t ->
  (forall e,
      provider_throws v (provider (provider_call v a t h)) e ->
      exists details,
        fst (pdfHandler v provider c w) =
        Normal (c_json (JObject [("error", JString "Failed to generate PDF");
                                 ("details", JString details)]) 500) /\
        match e with
        | ErrorInstance message => details = message
        | NonError _ => details = "Unknown error"
        end) /\
  (forall r errorText,
      provider (provider_call v a t h) = Normal r ->
      reads_payload v r = false ->
      text r = Normal errorText ->
      v = RawFetchVersion /\
      ok r = false /\
      (300 <= provider_status r <= 599 ->
       provider_status r <> 304 ->
       fst (pdfHandler v provider c w) =
       Normal (c_json (JObject [("error", JString "Failed to generate PDF from Cloudflare API");
                                ("details", JString errorText)])
                      (provider_status r))) /\
      (provider_status r < 200 \/ provider_status r = 304 \/
       599 < provider_status r ->
       exists details,
         fst (pdfHandler v provider c w) =
         Normal (c_json (JObject [("error", JString "Failed to generate PDF");
                                  ("details", JString details)]) 500))).
Proof.
  intros R. split.
  - intros e H. rewrite (run_thrown v provider c w h a t e R H).
    exists (error_details e). split; [reflexivity|].
    destruct e; reflexivity.
  - intros r s Hp Hr Hx.
    assert (Hv : v = RawFetchVersion) by (destruct v; [discriminate Hr | reflexivity]).
    assert (Hok : ok r = false) by (subst v; exact Hr).
    split; [exact Hv|]. split; [exact Hok|]. split.
    + intros B N.
      rewrite (run_upstream v provider c w h a t r s R Hp Hr Hx);
        [reflexivity|].
      apply (not_ok_sendable r Hok). split; assumption.
    + intros B.
      destruct (Response_init_error (provider_status r)) as [e|] eqn:Hs.
      * rewrite (run_unsendable v provider c w h a t r s e R Hp Hr Hx Hs).
        exists (error_details e). reflexivity.
      * apply (not_ok_sendable r Hok) in Hs. lia.
Qed.

Lemma provider_failure_response_witness :
  fst (pdfHandler ClientLibraryVersion
         (throwing (ErrorInstance "429 Too Many Requests"))
         (request_of (Some sample_html) sample_env) empty_world) =
  Normal (c_json (JObject [("error", JString "Failed to generate PDF");
                           ("details", JString "429 Too Many Requests")]) 500) /\
  fst (pdfHandler RawFetchVersion
         (answering (rejected_response 404 "not found"))
         (request_of (Some sample_html) sample_env) empty_world) =
  Normal (c_json (JObject [("error", JString "Failed to generate PDF from Cloudflare API");
                           ("details", JString "not found")]) 404) /\
  exists details,
    fst (pdfHandler RawFetchVersion
           (answering (rejected_response 304 ""))
           (request_of (Some sample_html) sample_env) empty_world) =
    Normal (c_json (JObject [("error", JString "Failed to generate PDF");
                             ("details", JString details)]) 500).
Proof.
  assert (R : reaches_provider (request_of (Some sample_html) sample_env)
                               sample_html "acct" "token")
    by (repeat split; reflexivity).
  split; [|split].
  - destruct (proj1 (provider_failure_response ClientLibraryVersion
                       (throwing (ErrorInstance "429 Too Many Requests"))
                       (request_of (Some sample_html) sample_env) empty_world
                       sample_html "acct" "token" R)
                (ErrorInstance "429 Too Many Requests") (call_rejects _ _))
      as (details & E & D).
    rewrite E, D. reflexivity.
  - apply (proj2 (provider_failure_response RawFetchVersion
                    (answering (rejected_response 404 "not found"))
                    (request_of (Some sample_html) sample_env) empty_world
                    sample_html "acct" "token" R)
             (rejected_response 404 "not found") "not found"
             eq_refl eq_refl eq_refl).
    + cbn. lia.
    + cbn. discriminate.
  - apply (proj2 (provider_failure_response RawFetchVersion
                    (answering (rejected_response 304 ""))
                    (request_of (Some sample_html) sample_env) empty_world
                    sample_html "acct" "token" R)
             (rejected_response 304 "") "" eq_refl eq_refl eq_refl).
    right. left. reflexivity.
Defined.

(** On the handler: when [body.html] is undefined or empty, the answer is
    the 400 validation error and the world is left as it was. *)
Lemma missing_html_is_rejected v provider c w :
  html (req_valid_json c) = None \/ html (req_valid_json c) = Some "" ->
  exists resp w',
    pdfHandler v provider c w = (Normal resp, w') /\
    status resp = 400 /\
    body resp = JsonBody (JObject
      [("error", JString "HTML content is required in the request body")]) /\
    outbound w' = outbound w /\
    w' = w.
Proof.
  intros H. apply truthy_None in H.
  rewrite (run_invalid v provider c w H).
  do 2 eexists. split; [reflexivity|]. repeat split; reflexivity.
Qed.




(** C5, as stated, fails: with the credential absent and the html missing,
    the status is 400, not 500. *)
Lemma validation_precedes_configuration :
  CLOUDFLARE_API_TOKEN (env (request_of None no_env)) = None /\
  exists resp,
    fst (pdfHandler ClientLibraryVersion (answering (pdf_response pdf_magic))
           (request_of None no_env) empty_world) = Normal resp /\
    status resp = 400 /\
    status resp <> 500.
Proof.
  split; [reflexivity|].
  eexists. split; [reflexivity|]. split; [reflexivity | discriminate].
Qed.

(** C5 (amended).  For every request, if the account identifier or the API
    credential is absent from the configuration, no outbound provider call
    is made, and the status is 500 (the configuration-error response) when
    the request's html is non-empty; when the html is missing or empty the
    400 validation response comes first. *)
Theorem missing_configuration v provider c w :
  CLOUDFLARE_ACCOUNT_ID (env c) = None \/ CLOUDFLARE_API_TOKEN (env c) = None ->
  exists resp,
    pdfHandler v provider c w = (Normal resp, w) /\
    (not_ (html (req_valid_json c)) = false ->
       status resp = 500 /\
       body resp = JsonBody (JObject [("error", JString msg_credentials)])) /\
    (not_ (html (req_valid_json c)) = true ->
       status resp = 400 /\
       body resp = JsonBody (JObject [("error", JString msg_html_required)])).
Proof.
  intros H. unfold not_.
  destruct (truthy (html (req_valid_json c))) as [h|] eqn:Hh.
  - rewrite (run_unconfigured v provider c w h Hh).
    + eexists. split; [reflexivity|]. split; [auto | discriminate].
    + destruct H as [H|H]; rewrite H; auto.
  - rewrite (run_invalid v provider c w Hh).
    eexists. split; [reflexivity|]. split; [discriminate | auto].
Qed.

Lemma missing_configuration_witness :
  exists resp,
    pdfHandler RawFetchVersion (answering (pdf_response pdf_magic))
      (request_of (Some sample_html) no_env) empty_world
      = (Normal resp, empty_world) /\
    status resp = 500 /\
    body resp = JsonBody (JObject [("error", JString msg_credentials)]).
Proof.
  destruct (missing_configuration RawFetchVersion
              (answering (pdf_response pdf_magic))
              (request_of (Some sample_html) no_env) empty_world
              (or_introl eq_refl)) as (resp & E & H & _).
  exists resp. split; [exact E|]. apply H. reflexivity.
Defined.

(** A provider status outside 200-299 is not 200. *)
Lemma not_ok_not_200 (r : ProviderResponse) :
  ok r = false -> (provider_status r =? 200) = false.
Proof.
  unfold ok. intros H. apply Z.eqb_neq. intros E. rewrite E in H.
  discriminate H.
Qed.

(** C6.  The handler always returns a response, and on every path other
    than the one where the provider delivered a payload (validation
    failure, missing configuration, provider failure, caught exception) the
    body is a JSON object that satisfies [ErrorResponseSchema]: its [error]
    is one of the four fixed messages, and it has no field besides [error]
    and [details]. *)
Theorem failures_are_json_errors v provider c w :
  exists resp w',
    pdfHandler v provider c w = (Normal resp, w') /\
    ((exists bytes,
         delivered v provider c bytes /\
         resp = new_Response bytes pdf_headers) \/
     (exists j message,
         body resp = JsonBody j /\
         ErrorResponseSchema j = true /\
         field "error" j = Some (JString message) /\
         In message [msg_html_required; msg_credentials; msg_failed; msg_failed_api] /\
         forall k, In k (keys j) -> k = "error" \/ k = "details")).
Proof.
  destruct (pdfHandler_path v provider c w) as (resp & w' & E & P).
  exists resp, w'. split; [exact E|].
  destruct P as [H | h H N | h a t e R T | h a t r s R V Hp Hr Hx Hs
                | h a t r s e R V Hp Hr Hx Hs | h a t r b R Hp Hr Hb].
  - right. do 2 eexists. split; [reflexivity|]. split; [reflexivity|].
    split; [reflexivity|]. split; [cbn; auto|].
    cbn. intros k [<-|[]]. now left.
  - right. do 2 eexists. split; [reflexivity|]. split; [reflexivity|].
    split; [reflexivity|]. split; [cbn; auto|].
    cbn. intros k [<-|[]]. now left.
  - right. do 2 eexists. split; [reflexivity|]. split; [reflexivity|].
    split; [reflexivity|]. split; [cbn; auto|].
    cbn. intros k [<-|[<-|[]]]; auto.
  - right. do 2 eexists. split; [reflexivity|]. split; [reflexivity|].
    split; [reflexivity|]. split; [cbn; auto|].
    cbn. intros k [<-|[<-|[]]]; auto.
  - right. do 2 eexists. split; [reflexivity|]. split; [reflexivity|].
    split; [reflexivity|]. split; [cbn; auto|].
    cbn. intros k [<-|[<-|[]]]; auto.
  - left. exists b. split; [|reflexivity]. now exists h, a, t, r.
Qed.

(** C7, as stated, fails: when the provider's payload is empty, the
    success response has an empty body. *)
Lemma empty_payload_is_passed_through :
  exists resp,
    fst (pdfHandler ClientLibraryVersion (answering (pdf_response []))
           (request_of (Some sample_html) sample_env) empty_world)
      = Normal resp /\
    is_success resp = true /\
    body resp = BinaryBody [].
Proof.
  eexists. split; [reflexivity|]. split; reflexivity.
Qed.

(** C7 (amended).  For every request the handler produces exactly one of
    the two outcomes, Success (status 200, binary body) or Failure (another
    status, JSON error body); on the success path the body is the whole
    payload the provider returned, so it is empty only when that payload
    is. *)
Theorem one_outcome_per_request v provider c w :
  exists resp w',
    pdfHandler v provider c w = (Normal resp, w') /\
    xorb (is_success resp) (is_failure resp) = true /\
    (is_success resp = true ->
     exists bytes,
       delivered v provider c bytes /\ body resp = BinaryBody bytes).
Proof.
  destruct (pdfHandler_path v provider c w) as (resp & w' & E & P).
  exists resp, w'. split; [exact E|].
  destruct P as [H | h H N | h a t e R T | h a t r s R V Hp Hr Hx Hs
                | h a t r s e R V Hp Hr Hx Hs | h a t r b R Hp Hr Hb].
  - split; [reflexivity | discriminate].
  - split; [reflexivity | discriminate].
  - split; [reflexivity | discriminate].
  - unfold is_success, is_failure, RawFetch.upstream_error, c_json; cbn.
    rewrite (not_ok_not_200 r Hr). split; [reflexivity | discriminate].
  - split; [reflexivity | discriminate].
  - split; [reflexivity|]. intros _. exists b. split; [|reflexivity].
    now exists h, a, t, r.
Qed.

(** The handler reads the configuration only through [truthy]. *)
Lemma pdfHandler_unset_empty v provider h e w :
  pdfHandler v provider (request_of h e) w =
  pdfHandler v provider (request_of h (unset_empty e)) w.
Proof.
  destruct v; unfold_handler; cbn;
    rewrite !truthy_unset_if_empty; reflexivity.
Qed.

(** C8, as stated, fails: with an empty credential and an empty html the
    answer is the 400 validation error, not the 500 configuration error. *)
Lemma empty_credential_with_empty_html :
  CLOUDFLARE_API_TOKEN
    {| CLOUDFLARE_ACCOUNT_ID := Some "acct"; CLOUDFLARE_API_TOKEN := Some "" |}
    = Some "" /\
  exists resp,
    fst (pdfHandler ClientLibraryVersion (answering (pdf_response pdf_magic))
           (request_of (Some "")
              {| CLOUDFLARE_ACCOUNT_ID := Some "acct"; CLOUDFLARE_API_TOKEN := Some "" |})
           empty_world) = Normal resp /\
    status resp = 400 /\
    status resp <> 500.
Proof.
  split; [reflexivity|].
  eexists. split; [reflexivity|]. split; [reflexivity | discriminate].
Qed.

(** C8 (amended).  A configuration value that is present but empty is
    treated as an unset one: for every request the handler behaves exactly
    as under the configuration where that value is unset.  That is the 500
    configuration-error response with no outbound call when the request's
    html is non-empty; when the html is missing or empty the 400 validation
    response comes first, again with no outbound call. *)
Theorem empty_configuration_is_unset v provider h e w :
  CLOUDFLARE_ACCOUNT_ID e = Some "" \/ CLOUDFLARE_API_TOKEN e = Some "" ->
  pdfHandler v provider (request_of h e) w =
    pdfHandler v provider (request_of h (unset_empty e)) w /\
  (CLOUDFLARE_ACCOUNT_ID (unset_empty e) = None \/
   CLOUDFLARE_API_TOKEN (unset_empty e) = None) /\
  (not_ h = false ->
   exists resp w',
     pdfHandler v provider (request_of h e) w = (Normal resp, w') /\
     status resp = 500 /\
     body resp = JsonBody (JObject [("error", JString msg_credentials)]) /\
     outbound w' = outbound w) /\
  (not_ h = true ->
   exists resp w',
     pdfHandler v provider (request_of h e) w = (Normal resp, w') /\
     status resp = 400 /\
     body resp = JsonBody (JObject [("error", JString msg_html_required)]) /\
     outbound w' = outbound w).
Proof.
  intros H. split; [apply pdfHandler_unset_empty|]. split; [|split].
  - destruct H as [H|H]; [left|right]; cbn; now rewrite H.
  - unfold not_. intros N.
    destruct (truthy h) as [s|] eqn:Hh; [clear N | discriminate N].
    rewrite (run_unconfigured v provider (request_of h e) w s Hh).
    + do 2 eexists. split; [reflexivity|]. repeat split; reflexivity.
    + cbn. destruct H as [H|H]; rewrite H; auto.
  - unfold not_. intros N.
    destruct (truthy h) as [s|] eqn:Hh; [discriminate N | clear N].
    rewrite (run_invalid v provider (request_of h e) w Hh).
    do 2 eexists. split; [reflexivity|]. repeat split; reflexivity.
Qed.

Lemma empty_configuration_is_unset_witness :
  exists resp w',
    pdfHandler ClientLibraryVersion (answering (pdf_response pdf_magic))
      (request_of (Some sample_html)
         {| CLOUDFLARE_ACCOUNT_ID := Some "acct"; CLOUDFLARE_API_TOKEN := Some "" |})
      empty_world = (Normal resp, w') /\
    status resp = 500 /\
    body resp = JsonBody (JObject [("error", JString msg_credentials)]) /\
    outbound w' = outbound empty_world.
Proof.
  apply (proj1 (proj2 (proj2 (empty_configuration_is_unset ClientLibraryVersion
           (answering (pdf_response pdf_magic)) (Some sample_html)
           {| CLOUDFLARE_ACCOUNT_ID := Some "acct"; CLOUDFLARE_API_TOKEN := Some "" |}
           empty_world (or_intror eq_refl))))).
  reflexivity.
Defined.

(** C9.  If the value caught by the handler's [catch] clause is not an
    [Error] instance, the response has status 500 and its [details] is the
    fixed string "Unknown error", whatever the thrown value. *)
Theorem non_error_details v provider c w thrown w1 :
  handler_body v provider c w = (Abrupt (NonError thrown), w1) ->
  exists resp w',
    pdfHandler v provider c w = (Normal resp, w') /\
    status resp = 500 /\
    body resp = JsonBody (JObject [("error", JString "Failed to generate PDF");
                                   ("details", JString "Unknown error")]).
Proof.
  intros H. rewrite pdfHandler_try_catch, H.
  do 2 eexists. split; [reflexivity|]. split; reflexivity.
Qed.

Lemma non_error_details_witness :
  exists resp w',
    pdfHandler RawFetchVersion (throwing (NonError (JString "boom")))
      (request_of (Some sample_html) sample_env) empty_world
      = (Normal resp, w') /\
    status resp = 500 /\
    body resp = JsonBody (JObject [("error", JString "Failed to generate PDF");
                                   ("details", JString "Unknown error")]).
Proof.
  apply (non_error_details RawFetchVersion (throwing (NonError (JString "boom")))
           (request_of (Some sample_html) sample_env) empty_world
           (JString "boom")
           (with_call empty_world
              (provider_call RawFetchVersion "acct" "token" sample_html))).
  reflexivity.
Defined.

(** C10.  The 400 validation-error response and the 500
    configuration-error response carry a JSON body whose only field is
    [error]; a response body has a [details] field only after the provider
    call, on the response of the [catch] clause (the [try] block threw: the
    provider exchange failed, or another exception arose) or, in the
    raw-fetch version, on the response that passes a provider error on. *)
Theorem details_only_on_provider_failures v provider c w resp w' :
  pdfHandler v provider c w = (Normal resp, w') ->
  (truthy (html (req_valid_json c)) = None ->
   status resp = 400 /\
   exists j, body resp = JsonBody j /\ keys j = ["error"] /\
             has_field "details" j = false) /\
  (forall h,
      truthy (html (req_valid_json c)) = Some h ->
      truthy (CLOUDFLARE_ACCOUNT_ID (env c)) = None \/
      truthy (CLOUDFLARE_API_TOKEN (env c)) = None ->
      status resp = 500 /\
      exists j, body resp = JsonBody j /\ keys j = ["error"] /\
                has_field "details" j = false) /\
  (forall j,
      body resp = JsonBody j ->
      has_field "details" j = true ->
      exists h a t,
        reaches_provider c h a t /\
        outbound w' = (outbound w ++ [provider_call v a t h])%list /\
        ((exists e w1,
             handler_body v provider c w = (Abrupt e, w1) /\
             resp = unexpected_error e) \/
         (exists r errorText,
             v = RawFetchVersion /\
             provider (provider_call v a t h) = Normal r /\
             ok r = false /\
             text r = Normal errorText /\
             resp = RawFetch.upstream_error errorText (provider_status r)))).
Proof.
  intros E. split; [|split].
  - intros H. rewrite (run_invalid v provider c w H) in E.
    inversion E; subst. split; [reflexivity|].
    eexists. split; [reflexivity|]. split; reflexivity.
  - intros h H N. rewrite (run_unconfigured v provider c w h H N) in E.
    inversion E; subst. split; [reflexivity|].
    eexists. split; [reflexivity|]. split; reflexivity.
  - intros j Hj Hd.
    destruct (pdfHandler_path v provider c w) as (resp0 & w0 & E0 & P).
    rewrite E in E0. inversion E0; subst resp0 w0. clear E0.
    destruct P as [H | h H N | h a t e R T | h a t r s R V Hp Hr Hx Hs
                  | h a t r s e R V Hp Hr Hx Hs | h a t r b R Hp Hr Hb].
    + cbn in Hj. inversion Hj; subst j. discriminate Hd.
    + cbn in Hj. inversion Hj; subst j. discriminate Hd.
    + exists h, a, t. split; [exact R|]. split; [reflexivity|].
      left. exists e. eexists. split; [|reflexivity].
      destruct R as (Hh & Ha & Ht).
      exact (body_throws v provider c w h a t Hh Ha Ht e T).
    + exists h, a, t. split; [exact R|]. split; [reflexivity|].
      right. now exists r, s.
    + exists h, a, t. split; [exact R|]. split; [reflexivity|].
      left. exists e. eexists. split; [|reflexivity].
      destruct R as (Hh & Ha & Ht).
      assert (Hr' : reads_payload v r = false) by (subst v; exact Hr).
      destruct (body_not_ok v provider c w h a t Hh Ha Ht r Hp Hr') as [_ ->].
      rewrite Hx, Hs. reflexivity.
    + discriminate Hj.
Qed.

Lemma details_only_on_provider_failures_witness :
  status validation_error = 400 /\
  exists j, body validation_error = JsonBody j /\ keys j = ["error"] /\
            has_field "details" j = false.
Proof.
  apply (proj1 (details_only_on_provider_failures ClientLibraryVersion
                  (answering (pdf_response pdf_magic))
                  (request_of (Some "") sample_env) empty_world
                  validation_error empty_world eq_refl)).
  reflexivity.
Defined.

(** ** The handler against its declared route *)

Lemma conforms_upstream (errorText : string) (st : Z) :
  st <> 200 ->
  conforms pdfRoute (RawFetch.upstream_error errorText st)
  = ((st =? 400) || (st =? 500))%bool.
Proof.
  intros N. unfold conforms, RawFetch.upstream_error, c_json, pdfRoute.
  cbn [responses status declared_response].
  rewrite (Z.eqb_sym 200 st), (Z.eqb_sym 400 st), (Z.eqb_sym 500 st).
  apply Z.eqb_neq in N. rewrite N.
  destruct (st =? 400); [reflexivity|].
  destruct (st =? 500); reflexivity.
Qed.

Lemma not_ok_neq_200 (r : ProviderResponse) :
  ok r = false -> provider_status r <> 200.
Proof.
  intros H. apply Z.eqb_neq. now apply not_ok_not_200.
Qed.

(** In the client-library version every response of the handler is one the
    route declares: status 200 with [application/pdf], a binary body and a
    [Content-Disposition] header, or status 400 or 500 with
    [application/json] and a body accepted by [ErrorResponseSchema]. *)
Theorem client_library_conforms_to_route provider c w :
  exists resp w',
    pdfHandler ClientLibraryVersion provider c w = (Normal resp, w') /\
    conforms pdfRoute resp = true /\
    (status resp = 200 \/ status resp = 400 \/ status resp = 500).
Proof.
  destruct (pdfHandler_path ClientLibraryVersion provider c w)
    as (resp & w' & E & P).
  exists resp, w'. split; [exact E|].
  destruct P as [H | h H N | h a t e R T | h a t r s R V Hp Hr Hx Hs
                | h a t r s e R V Hp Hr Hx Hs | h a t r b R Hp Hr Hb];
    try discriminate V; split; try reflexivity; cbn; auto.
Qed.

(** In the raw-fetch version the response leaves the declared ones exactly
    when the provider answered with a status in 300-599 other than 304, 400
    and 500 and its text could be read: that status is passed on.  (For a
    status [c.json] cannot answer with, the [catch] clause answers a
    declared 500.) *)
Theorem raw_fetch_conformance provider c w :
  exists resp w',
    pdfHandler RawFetchVersion provider c w = (Normal resp, w') /\
    (conforms pdfRoute resp = false <->
     exists h a t r errorText,
       reaches_provider c h a t /\
       provider (provider_call RawFetchVersion a t h) = Normal r /\
       text r = Normal errorText /\
       300 <= provider_status r <= 599 /\
       provider_status r <> 304 /\
       provider_status r <> 400 /\
       provider_status r <> 500 /\
       status resp = provider_status r).
Proof.
  destruct (pdfHandler_path RawFetchVersion provider c w)
    as (resp & w' & E & P).
  exists resp, w'. split; [exact E|]. split.
  - intros C.
    destruct P as [H | h H N | h a t e R T | h a t r s R V Hp Hr Hx Hs
                  | h a t r s e R V Hp Hr Hx Hs | h a t r b R Hp Hr Hb];
      try discriminate C.
    rewrite (conforms_upstream s _ (not_ok_neq_200 r Hr)) in C.
    apply Bool.orb_false_iff in C. destruct C as [C4 C5].
    apply Z.eqb_neq in C4. apply Z.eqb_neq in C5.
    apply (not_ok_sendable r Hr) in Hs. destruct Hs as [B N3].
    exists h, a, t, r, s. split; [exact R|].
    repeat split; assumption || reflexivity || apply B.
  - intros (h & a & t & r & s & R & Hp & Hx & B & N3 & N4 & N5 & _).
    assert (Hr : ok r = false).
    { unfold ok. apply Bool.andb_false_iff. right. apply Z.leb_gt. lia. }
    assert (Hs : Response_init_error (provider_status r) = None)
      by (apply (not_ok_sendable r Hr); split; assumption).
    rewrite (run_upstream RawFetchVersion provider c w h a t r s R Hp Hr Hx Hs) in E.
    inversion E; subst resp w'.
    rewrite (conforms_upstream s _ (not_ok_neq_200 r Hr)).
    apply Bool.orb_false_iff. split; now apply Z.eqb_neq.
Qed.

(** ** Console output *)


(** ** What the response depends on *)

(** The response of a request that reaches the provider is determined by
    the provider's answer alone: the html, the account identifier and the
    credential act on it only through that answer, and the gateway itself
    puts none of them in a response. *)
Theorem answer_determines_response v provider c1 c2 w1 w2 h1 a1 t1 h2 a2 t2 :
  reaches_provider c1 h1 a1 t1 ->
  reaches_provider c2 h2 a2 t2 ->
  provider (provider_call v a1 t1 h1) = provider (provider_call v a2 t2 h2) ->
  fst (pdfHandler v provider c1 w1) = fst (pdfHandler v provider c2 w2).
Proof.
  intros R1 R2 Hp.
  destruct (provider (provider_call v a2 t2 h2)) as [r|e] eqn:A2.
  - destruct (reads_payload v r) eqn:Hr.
    + destruct (arrayBuffer r) as [b|e] eqn:Hb.
      * rewrite (run_delivered v provider c1 w1 h1 a1 t1 r b R1 Hp Hr Hb).
        rewrite (run_delivered v provider c2 w2 h2 a2 t2 r b R2 A2 Hr Hb).
        reflexivity.
      * rewrite (run_thrown v provider c1 w1 h1 a1 t1 e R1)
          by (rewrite Hp; now apply payload_unreadable).
        rewrite (run_thrown v provider c2 w2 h2 a2 t2 e R2)
          by (rewrite A2; now apply payload_unreadable).
        reflexivity.
    + destruct (text r) as [s|e] eqn:Hx.
      * destruct (Response_init_error (provider_status r)) as [e|] eqn:Hs.
        -- rewrite (run_unsendable v provider c1 w1 h1 a1 t1 r s e R1 Hp Hr Hx Hs).
           rewrite (run_unsendable v provider c2 w2 h2 a2 t2 r s e R2 A2 Hr Hx Hs).
           reflexivity.
        -- rewrite (run_upstream v provider c1 w1 h1 a1 t1 r s R1 Hp Hr Hx Hs).
           rewrite (run_upstream v provider c2 w2 h2 a2 t2 r s R2 A2 Hr Hx Hs).
           reflexivity.
      * rewrite (run_thrown v provider c1 w1 h1 a1 t1 e R1)
          by (rewrite Hp; now apply text_unreadable).
        rewrite (run_thrown v provider c2 w2 h2 a2 t2 e R2)
          by (rewrite A2; now apply text_unreadable).
        reflexivity.
  - rewrite (run_thrown v provider c1 w1 h1 a1 t1 e R1)
      by (rewrite Hp; apply call_rejects).
    rewrite (run_thrown v provider c2 w2 h2 a2 t2 e R2)
      by (rewrite A2; apply call_rejects).
    reflexivity.
Qed.

Lemma answer_determines_response_witness :
  fst (pdfHandler RawFetchVersion (answering (rejected_response 403 "forbidden"))
         (request_of (Some sample_html) sample_env) empty_world) =
  fst (pdfHandler RawFetchVersion (answering (rejected_response 403 "forbidden"))
         (request_of (Some "<p>other</p>")
            {| CLOUDFLARE_ACCOUNT_ID := Some "other-acct";
               CLOUDFLARE_API_TOKEN := Some "other-token" |})
         empty_world).
Proof.
  apply (answer_determines_response RawFetchVersion
           (answering (rejected_response 403 "forbidden"))
           (request_of (Some sample_html) sample_env)
           (request_of (Some "<p>other</p>")
              {| CLOUDFLARE_ACCOUNT_ID := Some "other-acct";
                 CLOUDFLARE_API_TOKEN := Some "other-token" |})
           empty_world empty_world
           sample_html "acct" "token" "<p>other</p>" "other-acct" "other-token").
  - repeat split; reflexivity.
  - repeat split; reflexivity.
  - reflexivity.
Defined.

(** ** The two versions compared *)

(** The two versions answer a request alike, in response and in console
    output, whenever the provider settles their calls alike and not with a
    response outside 200-299; in particular for every request that does not
    reach the provider. *)
Theorem versions_agree provider c w :
  (forall h a t,
      reaches_provider c h a t ->
      provider (provider_call ClientLibraryVersion a t h) =
      provider (provider_call RawFetchVersion a t h) /\
      forall r, provider (provider_call RawFetchVersion a t h) = Normal r ->
                ok r = true) ->
  fst (pdfHandler ClientLibraryVersion provider c w) =
  fst (pdfHandler RawFetchVersion provider c w) /\
  console (snd (pdfHandler ClientLibraryVersion provider c w)) =
  console (snd (pdfHandler RawFetchVersion provider c w)).
Proof.
  intros A.
  destruct (truthy (html (req_valid_json c))) as [h|] eqn:Hh.
  2:{ rewrite !run_invalid by exact Hh. split; reflexivity. }
  destruct (truthy (CLOUDFLARE_ACCOUNT_ID (env c))) as [a|] eqn:Ha.
  2:{ rewrite !(run_unconfigured _ provider c w h Hh) by auto. split; reflexivity. }
  destruct (truthy (CLOUDFLARE_API_TOKEN (env c))) as [t|] eqn:Ht.
  2:{ rewrite !(run_unconfigured _ provider c w h Hh) by auto. split; reflexivity. }
  assert (R : reaches_provider c h a t) by (repeat split; assumption).
  destruct (A h a t R) as [Hp Hok].
  destruct (provider (provider_call RawFetchVersion a t h)) as [r|e] eqn:A2.
  - specialize (Hok r eq_refl).
    destruct (arrayBuffer r) as [b|e] eqn:Hb.
    + rewrite (run_delivered ClientLibraryVersion provider c w h a t r b R Hp eq_refl Hb).
      rewrite (run_delivered RawFetchVersion provider c w h a t r b R A2 Hok Hb).
      split; reflexivity.
    + rewrite (run_thrown ClientLibraryVersion provider c w h a t e R)
        by (rewrite Hp; now apply payload_unreadable).
      rewrite (run_thrown RawFetchVersion provider c w h a t e R)
        by (rewrite A2; now apply payload_unreadable).
      split; reflexivity.
  - rewrite (run_thrown ClientLibraryVersion provider c w h a t e R)
      by (rewrite Hp; apply call_rejects).
    rewrite (run_thrown RawFetchVersion provider c w h a t e R)
      by (rewrite A2; apply call_rejects).
    split; reflexivity.
Qed.

Lemma versions_agree_witness :
  fst (pdfHandler ClientLibraryVersion (answering (pdf_response pdf_magic))
         (request_of (Some sample_html) sample_env) empty_world) =
  fst (pdfHandler RawFetchVersion (answering (pdf_response pdf_magic))
         (request_of (Some sample_html) sample_env) empty_world).
Proof.
  apply (versions_agree (answering (pdf_response pdf_magic))
           (request_of (Some sample_html) sample_env) empty_world).
  intros h a t _. split; [reflexivity|].
  intros r E. inversion E. reflexivity.
Defined.

(** ** The request schema and the handler *)

Lemma validation_error_only_when_invalid v provider c w :
  fst (pdfHandler v provider c w) = Normal validation_error ->
  truthy (html (req_valid_json c)) = None.
Proof.
  destruct (pdfHandler_path v provider c w) as (resp & w' & E & P).
  rewrite E. cbn [fst]. intros X. inversion X as [X']. clear X.
  destruct P as [H | h H N | h a t e R T | h a t r s R V Hp Hr Hx Hs
                | h a t r s e R V Hp Hr Hx Hs | h a t r b R Hp Hr Hb];
    try discriminate X'.
  exact H.
Qed.

(** A body accepted by [PDFRequestSchema] has a string [html], which may be
    the empty string; for accepted bodies the handler answers with the
    validation error exactly when that string is empty. *)
Theorem schema_admits_empty_html j req :
  PDFRequestSchema j = Some req ->
  (exists s, html req = Some s /\ field "html" j = Some (JString s)) /\
  forall v provider e w,
    fst (pdfHandler v provider {| req_valid_json := req; env := e |} w)
      = Normal validation_error <->
    html req = Some "".
Proof.
  unfold PDFRequestSchema. intros H.
  destruct j as [ | | | | |fields]; try discriminate H.
  destruct (field "html" (JObject fields)) as [[ | | |s| | ]|] eqn:F;
    try discriminate H.
  inversion H; subst req. clear H. cbn [html].
  split; [exists s; auto|].
  intros v provider e w. split.
  - intros X. apply validation_error_only_when_invalid in X.
    cbn [req_valid_json html] in X. apply truthy_None in X.
    destruct X as [X|X]; [discriminate X | exact X].
  - intros X. rewrite run_invalid; [reflexivity|].
    cbn [req_valid_json html]. apply truthy_None. now right.
Qed.

Lemma schema_admits_empty_html_witness :
  fst (pdfHandler ClientLibraryVersion (answering (pdf_response pdf_magic))
         {| req_valid_json := {| html := Some "" |}; env := sample_env |}
         empty_world)
  = Normal validation_error.
Proof.
  apply (proj2 (schema_admits_empty_html
                  (JObject [("html", JString ""); ("extra", JNull)])
                  {| html := Some "" |} eq_refl)
           ClientLibraryVersion (answering (pdf_response pdf_magic))
           sample_env empty_world).
  reflexivity.
Defined.

(** ** The [/doc] endpoint *)

Lemma get_field_spread_same fields key value :
  get_field key (OpenAPIDoc.spread_with fields key value) = Some value.
Proof.
  induction fields as [|[k v] rest IH]; cbn.
  - now rewrite String.eqb_refl.
  - destruct (String.eqb k key) eqn:E; cbn; rewrite E; [reflexivity | exact IH].
Qed.

Lemma get_field_spread_other fields key value k :
  k <> key ->
  get_field k (OpenAPIDoc.spread_with fields key value) = get_field k fields.
Proof.
  intros N. induction fields as [|[k0 v] rest IH]; cbn.
  - destruct (String.eqb_spec key k); [congruence | reflexivity].
  - destruct (String.eqb_spec k0 key) as [E|E]; cbn.
    + subst k0. destruct (String.eqb_spec key k); [congruence | reflexivity].
    + destruct (String.eqb k0 k); [reflexivity | exact IH].
Qed.

Lemma keys_spread fields key value k :
  In k (map fst (OpenAPIDoc.spread_with fields key value)) <->
  k = key \/ In k (map fst fields).
Proof.
  induction fields as [|[k0 v] rest IH]; cbn.
  - split; [intros [H|[]]; auto | intros [H|[]]; auto].
  - destruct (String.eqb_spec k0 key) as [E|E]; cbn.
    + subst k0. split; [intros [H|H]; auto | intros [H|[H|H]]; auto].
    + rewrite IH. split; [intros [H|[H|H]]; auto | intros [H|[H|H]]; auto].
Qed.

(** Whatever document the generator returns, also one with [servers] of its
    own, the [/doc] response has status 200 and its [servers] is the single
    entry for the origin of the request: [protocol], "//", [host]. *)
Theorem doc_servers_follow_request getOpenAPIDocument url doc :
  getOpenAPIDocument OpenAPIDoc.document_config = Normal doc ->
  exists j,
    OpenAPIDoc.docHandler getOpenAPIDocument url = Normal (c_json j 200) /\
    field "servers" j =
    Some (JArray [JObject
      [("url", JString (OpenAPIDoc.protocol url ++ "//" ++ OpenAPIDoc.host url));
       ("description", JString "Current server")]]).
Proof.
  intros G. unfold OpenAPIDoc.docHandler. rewrite G.
  eexists. split; [reflexivity|].
  cbn [field]. apply get_field_spread_same.
Qed.

(** The [/doc] response passes every other top-level field of the generated
    document on unchanged, and adds no key besides [servers]. *)
Theorem doc_keeps_other_fields getOpenAPIDocument url doc :
  getOpenAPIDocument OpenAPIDoc.document_config = Normal doc ->
  exists j,
    OpenAPIDoc.docHandler getOpenAPIDocument url = Normal (c_json j 200) /\
    (forall k, k <> "servers" -> field k j = get_field k doc) /\
    (forall k, In k (keys j) <-> k = "servers" \/ In k (map fst doc)).
Proof.
  intros G. unfold OpenAPIDoc.docHandler. rewrite G.
  eexists. split; [reflexivity|]. split.
  - intros k N. cbn [field]. now apply get_field_spread_other.
  - intros k. cbn [keys]. apply keys_spread.
Qed.

Lemma doc_servers_follow_request_witness :
  exists j,
    OpenAPIDoc.docHandler sample_generator sample_url = Normal (c_json j 200) /\
    field "servers" j =
    Some (JArray [JObject [("url", JString "https://pdf.example.com");
                           ("description", JString "Current server")]]).
Proof.
  apply (doc_servers_follow_request sample_generator sample_url
           [("openapi", JString "3.0.0");
            ("info", JObject
               [("version", JString "1.0.0");
                ("title", JString "TSX PDF API");
                ("description",
                 JString "API for converting HTML to PDF using Cloudflare Browser Rendering")]);
            ("servers", JArray [JObject [("url", JString "http://localhost:8787")]]);
            ("paths", JObject [])]).
  reflexivity.
Defined.

Lemma doc_keeps_other_fields_witness :
  exists j,
    OpenAPIDoc.docHandler sample_generator sample_url = Normal (c_json j 200) /\
    field "paths" j = Some (JObject []) /\
    field "openapi" j = Some (JString "3.0.0").
Proof.
  destruct (doc_keeps_other_fields sample_generator sample_url
              [("openapi", JString "3.0.0");
               ("info", JObject
                  [("version", JString "1.0.0");
                   ("title", JString "TSX PDF API");
                   ("description",
                    JString "API for converting HTML to PDF using Cloudflare Browser Rendering")]);
               ("servers", JArray [JObject [("url", JString "http://localhost:8787")]]);
               ("paths", JObject [])]
              eq_refl) as (j & E & K & _).
  exists j. split; [exact E|]. split.
  - rewrite (K "paths"); [reflexivity | discriminate].
  - rewrite (K "openapi"); [reflexivity | discriminate].
Defined.

